(** * Solar investment platform: the ROI calculator of [check.py]

    A shallow embedding of the Streamlit script [check.py] (and of the
    single-city calculation block of its predecessor [app.py]).

    - Python [float] and numpy [float64] are IEEE-754 binary64: they are
      modelled by Rocq's primitive [float], whose operations are the same
      correctly rounded binary64 operations, so every example below is
      computed bit for bit as the interpreter computes it.
    - Uncaught exceptions are modelled by the [outcome] error monad.
    - The reference table [data.csv] is not part of the sources; the
      [DataFrame] is therefore an input of every definition.  Its
      numeric columns are read as [float64] and its text cells are
      present (no NaN for an empty cell).
    - Streamlit widgets are inputs ([Widgets]); what the script shows is
      a list of [ui_event]s; [st.session_state.results_data] is threaded
      explicitly. *)

From Stdlib Require Import ZArith List String Bool Lia Floats.
Import ListNotations.

Set Warnings "-inexact-float,-register-all".
Local Open Scope string_scope.

(** ** Python values and exceptions *)

Module Py.

Inductive exn : Set :=
| IndexError
| ZeroDivisionError
| ConnectionError
| JSONDecodeError.

(** The result of running a piece of Python: a value, or an exception
    that nothing in the script catches. *)
Inductive outcome (A : Type) : Type :=
| Ok (a : A)
| Raise (e : exn).

Arguments Ok {A} a.
Arguments Raise {A} e.

Definition bind {A B : Type} (c : outcome A) (k : A -> outcome B) : outcome B :=
  match c with
  | Ok a => k a
  | Raise e => Raise e
  end.

(** [float(n)] for a Python [int]: the nearest binary64 value (exact
    below 2^53, which bounds every integer a Streamlit form returns). *)
Definition float_of_int (n : Z) : float :=
  SF2Prim (binary_normalize prec emax n 0 false).

(** The builtin [max(a, b)]: it keeps [a] unless [b > a]. *)
Definition max (a b : float) : float :=
  if (a <? b)%float then b else a.

(** [a / b] on floats: [ZeroDivisionError] when [b == 0]. *)
Definition truediv (a b : float) : outcome float :=
  if (b =? 0)%float then Raise ZeroDivisionError else Ok (a / b)%float.

(** Truth value of a string: the empty string is false. *)
Definition str_truthy (s : string) : bool :=
  negb (s =? "").

(** Values decoded from JSON; [JNull] is Python's [None]. *)
Inductive json : Type :=
| JNull
| JBool (b : bool)
| JNumber (n : Z)
| JString (s : string)
| JArray (items : list json)
| JObject (members : list (string * json)).

Definition json_truthy (j : json) : bool :=
  match j with
  | JNull => false
  | JBool b => b
  | JNumber n => negb (n =? 0)%Z
  | JString s => str_truthy s
  | JArray items => negb (Nat.eqb (List.length items) 0)
  | JObject members => negb (Nat.eqb (List.length members) 0)
  end.

End Py.

Import Py.

Declare Scope py_scope.
Delimit Scope py_scope with py.
Notation "x <- c ;; k" := (Py.bind c (fun x => k))
  (at level 61, c at next level, right associativity) : py_scope.
Local Open Scope py_scope.

(** ** The reference table ([pd.read_csv('data.csv')]) *)

Record Row : Type := mkRow {
  Country : string;
  City : string;
  GHI_Daily : float;
  Tariff_USD_kWh : float;
  Incentive_Type : string;
  Incentive_Value_USD : float;
  Policy_Summary : string;
  Local_Currency_Code : string;
  Local_Currency_Symbol : string;
  USD_to_Local_Rate : float;
  Latitude : float;
  Longitude : float
}.

Definition DataFrame : Type := list Row.

(** [df[df['Country'] == c]] *)
Definition where_country (df : DataFrame) (c : string) : DataFrame :=
  filter (fun r => Country r =? c) df.

(** [df[df['City'] == c]] *)
Definition where_city (df : DataFrame) (c : string) : DataFrame :=
  filter (fun r => City r =? c) df.

(** [.iloc[0]]: the first row, [IndexError] on an empty frame. *)
Definition iloc0 (rows : DataFrame) : outcome Row :=
  match rows with
  | [] => Raise IndexError
  | r :: _ => Ok r
  end.

(** ** The loading animation ([load_lottie_url]) *)

Record http_response : Type := mkResponse {
  status_code : Z;
  (** what [r.json()] decodes; [None] when the body is not JSON *)
  body_json : option json
}.

(** What [requests.get(url)] does: it returns a response, or raises
    (no route to host, DNS failure, TLS error, ...). *)
Inductive get_outcome : Type :=
| GetReturns (r : http_response)
| GetRaises (e : exn).

Definition Network : Type := string -> get_outcome.

Definition load_lottie_url (requests_get : Network) (url : string) : outcome json :=
  match requests_get url with
  | GetRaises e => Raise e
  | GetReturns r =>
      if negb (status_code r =? 200)%Z then Ok JNull
      else match body_json r with
           | Some j => Ok j
           | None => Raise JSONDecodeError
           end
  end.

Definition lottie_url : string :=
  "https://lottie.host/7e00e238-0331-4a11-b1e1-11d7f1e72e12/T5vBf3Yx2N.json".

(** ** Widgets, session state and what the page shows *)

Record Widgets : Type := mkWidgets {
  (** [st.toggle("Compare Mode")] *)
  compare_mode : bool;
  (** [st.selectbox("Select Country", ...)] *)
  selected_country : string;
  (** [st.multiselect("Select Cities to Compare", ...)] *)
  multiselect_cities : list string;
  (** [st.selectbox("Select City", ...)]; [None] when there is no option *)
  selectbox_city : option string;
  (** [st.number_input("System Size (kW)", min_value=1.0, ...)]: a float *)
  system_size_kw : float;
  (** [st.number_input("Total System Cost (USD)", min_value=1000, ...)]: an int *)
  system_cost_usd : Z;
  (** [st.selectbox("Display Currency", ["USD", local_code])] *)
  display_currency : string;
  (** [st.button("Calculate ROI")] *)
  calculate_button : bool
}.

(** The document [create_pdf] lays out, represented by the values it
    prints (the FPDF layout itself is an external library). *)
Record PdfDoc : Type := mkPdf {
  pdf_country : string;
  pdf_city : string;
  pdf_size : float;
  pdf_cost : float;
  pdf_net_cost : float;
  pdf_revenue : float;
  pdf_payback : float;
  pdf_energy : float;
  pdf_policy : string;
  pdf_symbol : string;
  pdf_currency_code : string
}.

Definition create_pdf (country city : string) (size cost net_cost revenue payback energy : float)
  (policy symbol currency_code : string) : PdfDoc :=
  mkPdf country city size cost net_cost revenue payback energy policy symbol currency_code.

(** [result_dict], with the keys of the source. *)
Module Res.
Record t : Type := mk {
  country : string;
  city : string;
  payback : float;
  net_cost : float;
  revenue : float;
  energy : float;
  pdf_bytes : option PdfDoc;
  file_name : string;
  incentive_value : float;
  incentive_type : string;
  ghi : float;
  tariff : float;
  size : float;
  cost : float;
  ratio : float;
  symbol : string;
  currency_code : string
}.
End Res.

(** [st.session_state.results_data]: [None], one dict (single mode) or a
    list of dicts (compare mode). *)
Inductive results_data : Type :=
| NoResults
| SingleResult (r : Res.t)
| ResultList (rs : list Res.t).

Inductive ui_event : Type :=
| Lottie
| Warning (msg : string)
| Toast (msg : string).

(** ** Section 4 of the script: the sidebar *)

Record Sidebar : Type := mkSidebar {
  lottie_shown : bool;
  selected_cities : list string;
  selected_city : option string;
  country_data : Row;
  local_code : string;
  local_symbol : string;
  local_rate : float
}.

Definition sidebar (requests_get : Network) (df : DataFrame) (w : Widgets) : outcome Sidebar :=
  lottie_json <- load_lottie_url requests_get lottie_url ;;
  let selected_cities := if compare_mode w then multiselect_cities w else [] in
  let selected_city := if compare_mode w then None else selectbox_city w in
  (* the GHI caption of the selected city *)
  _ <- match selected_city with
       | Some c =>
           if negb (compare_mode w) && str_truthy c
           then (city_data_for_example <- iloc0 (where_city df c) ;; Ok tt)
           else Ok tt
       | None => Ok tt
       end ;;
  country_data <- iloc0 (where_country df (selected_country w)) ;;
  Ok (mkSidebar (json_truthy lottie_json) selected_cities selected_city country_data
        (Local_Currency_Code country_data)
        (Local_Currency_Symbol country_data)
        (USD_to_Local_Rate country_data)).

(** ** Section 6 of the script: the ROI calculation *)

Definition PERFORMANCE_RATIO : float := 0.75.

Definition annual_energy_kwh (system_size_kw ghi : float) : float :=
  (system_size_kw * ghi * 365 * PERFORMANCE_RATIO)%float.

Definition annual_revenue_usd (annual_energy_kwh tariff : float) : float :=
  (annual_energy_kwh * tariff)%float.

(** [system_cost_usd] is a Python [int]; it becomes a float at its first
    arithmetic use against a float operand, in both branches. *)
Definition net_system_cost_usd (incentive_type : string) (system_cost_usd : Z)
  (incentive_value_usd : float) : float :=
  if incentive_type =? "CAPEX_Subsidy"
  then (float_of_int system_cost_usd - incentive_value_usd)%float
  else float_of_int system_cost_usd.

Definition payback_period_years (net_system_cost_usd annual_revenue_usd : float) : outcome float :=
  truediv net_system_cost_usd (Py.max 0.01 annual_revenue_usd).

(** Lines 180-185: the display rate and symbol. *)
Definition display_rate (display_currency : string) (local_rate : float) : float :=
  if display_currency =? "USD" then 1.0%float else local_rate.

Definition display_symbol (display_currency : string) (local_symbol : string) : string :=
  if display_currency =? "USD" then "$" else local_symbol.

(** The body of the loop over [cities_to_process], once [city_data] has
    been fetched (lines 194-249). *)
Definition roi_of_row (w : Widgets) (sb : Sidebar) (city_name : string) (city_data : Row)
  : outcome Res.t :=
  let ghi := GHI_Daily city_data in
  let tariff := Tariff_USD_kWh city_data in
  let incentive_type := Incentive_Type city_data in
  let incentive_value_usd := Incentive_Value_USD city_data in
  let policy_summary := Policy_Summary city_data in
  let rate := display_rate (display_currency w) (local_rate sb) in
  let sym := display_symbol (display_currency w) (local_symbol sb) in
  let energy := annual_energy_kwh (system_size_kw w) ghi in
  let revenue := annual_revenue_usd energy tariff in
  let net := net_system_cost_usd incentive_type (system_cost_usd w) incentive_value_usd in
  payback <- payback_period_years net revenue ;;
  let display_cost := (float_of_int (system_cost_usd w) * rate)%float in
  let display_net_cost := (net * rate)%float in
  let display_revenue := (revenue * rate)%float in
  let pdf_bytes :=
    if negb (compare_mode w)
    then Some (create_pdf (selected_country w) city_name (system_size_kw w) display_cost
                 display_net_cost display_revenue payback energy
                 policy_summary sym (display_currency w))
    else None in
  Ok (Res.mk (selected_country w) city_name payback display_net_cost
        display_revenue energy pdf_bytes
        ("Solar_Report_" ++ selected_country w ++ "_" ++ city_name ++ ".pdf")
        (incentive_value_usd * rate)%float incentive_type ghi (tariff * rate)%float
        (system_size_kw w) display_cost PERFORMANCE_RATIO sym (display_currency w)).

(** One iteration of the loop: line 192 fetches the row by city name
    alone, then the body runs. *)
Definition roi_for_city (df : DataFrame) (w : Widgets) (sb : Sidebar) (city_name : string)
  : outcome Res.t :=
  city_data <- iloc0 (where_city df city_name) ;;
  roi_of_row w sb city_name city_data.

(** [for city_name in cities_to_process: ... all_results.append(result_dict)] *)
Fixpoint roi_loop (df : DataFrame) (w : Widgets) (sb : Sidebar)
  (cities_to_process : list string) (all_results : list Res.t) : outcome (list Res.t) :=
  match cities_to_process with
  | [] => Ok all_results
  | city_name :: rest =>
      result_dict <- roi_for_city df w sb city_name ;;
      roi_loop df w sb rest (all_results ++ [result_dict])
  end.

(** Lines 169-177: the cities to process and the warning shown when
    nothing is selected. *)
Definition cities_to_process (w : Widgets) (sb : Sidebar) : list string * list ui_event :=
  if compare_mode w then
    (selected_cities sb,
     match selected_cities sb with
     | [] => [Warning "Please select at least one city in Compare Mode."]
     | _ :: _ => []
     end)
  else
    match selected_city sb with
    | Some c => if str_truthy c then ([c], [])
                else ([], [Warning "Please select a city."])
    | None => ([], [Warning "Please select a city."])
    end.

(** Lines 252-257: the guarded save. *)
Definition save_results (w : Widgets) (all_results : list Res.t) (old : results_data) : results_data :=
  match all_results with
  | [] => old
  | first :: _ => if compare_mode w then ResultList all_results else SingleResult first
  end.

Record Calculation : Type := mkCalculation {
  all_results : list Res.t;
  stored : results_data;
  shown : list ui_event
}.

(** [if calculate_button: ...] *)
Definition calculate (df : DataFrame) (w : Widgets) (sb : Sidebar) (old : results_data)
  : outcome Calculation :=
  let '(cities, warnings) := cities_to_process w sb in
  results <- roi_loop df w sb cities [] ;;
  Ok (mkCalculation results (save_results w results old)
        (warnings ++ [Toast "Success! Calculation complete."])).

(** One run of the script, from the top to the end of section 6. *)
Definition run_script (requests_get : Network) (df : DataFrame) (w : Widgets)
  (old : results_data) : outcome Calculation :=
  sb <- sidebar requests_get df w ;;
  let lottie := if lottie_shown sb then [Lottie] else [] in
  if calculate_button w then
    c <- calculate df w sb old ;;
    Ok (mkCalculation (all_results c) (stored c) (lottie ++ shown c))
  else Ok (mkCalculation [] old lottie).

(** ** The calculation block of [app.py] (single city, no compare mode) *)

Module App.

(** [if calculate_button: ...] of [app.py]: the same formulas, the row
    of [selected_city], and a report that is always produced.  The new
    value of [st.session_state.results] is returned.  (The block is
    embedded as it is written; the file itself stops the parser at its
    line 254, [)..add_to(m)].) *)
Definition calculate (df : DataFrame) (w : Widgets) (sb : Sidebar) (selected_city : string)
  : outcome Res.t :=
  city_data <- iloc0 (where_city df selected_city) ;;
  let ghi := GHI_Daily city_data in
  let tariff := Tariff_USD_kWh city_data in
  let incentive_type := Incentive_Type city_data in
  let incentive_value_usd := Incentive_Value_USD city_data in
  let policy_summary := Policy_Summary city_data in
  let rate := display_rate (display_currency w) (local_rate sb) in
  let sym := display_symbol (display_currency w) (local_symbol sb) in
  let energy := annual_energy_kwh (system_size_kw w) ghi in
  let revenue := annual_revenue_usd energy tariff in
  let net := net_system_cost_usd incentive_type (system_cost_usd w) incentive_value_usd in
  payback <- payback_period_years net revenue ;;
  let display_cost := (float_of_int (system_cost_usd w) * rate)%float in
  let display_net_cost := (net * rate)%float in
  let display_revenue := (revenue * rate)%float in
  let pdf_bytes :=
    create_pdf (selected_country w) selected_city (system_size_kw w) display_cost
      display_net_cost display_revenue payback energy policy_summary sym
      (display_currency w) in
  Ok (Res.mk (selected_country w) selected_city payback display_net_cost
        display_revenue energy (Some pdf_bytes)
        ("Solar_Report_" ++ selected_country w ++ "_" ++ selected_city ++ ".pdf")
        (incentive_value_usd * rate)%float incentive_type ghi (tariff * rate)%float
        (system_size_kw w) display_cost PERFORMANCE_RATIO sym (display_currency w)).

End App.

(** ** Display formatting *)

(** [n / d] rounded to the nearest integer, ties to even ([0 < d]). *)
Definition round_half_even (n d : Z) : Z :=
  let q := (n / d)%Z in
  match (2 * (n mod d) ?= d)%Z with
  | Lt => q
  | Gt => (q + 1)%Z
  | Eq => if Z.even q then q else (q + 1)%Z
  end.

(** The digits [f"{x:.2f}"] prints, as a number of hundredths: the
    exact binary value, correctly rounded to two decimals.  [None] for
    an infinity or a NaN, which print no digits. *)
Definition hundredths (x : float) : option Z :=
  match Prim2SF x with
  | S754_zero _ => Some 0%Z
  | S754_finite s m e =>
      Some (cond_Zopp s
              (if (0 <=? e)%Z then (Z.pos m * 100 * 2 ^ e)%Z
               else round_half_even (Z.pos m * 100) (2 ^ (- e))))
  | S754_infinity _ | S754_nan => None
  end.

(** ** Predicates used in the statements *)





(** A location the table returns for its own city name: the row the
    loop computes that city from. *)
Definition fetched (df : DataFrame) (loc : Row) : Prop :=
  iloc0 (where_city df (City loc)) = Ok loc.

(** The result of the single-location computation on a row. *)
Definition computed_from (w : Widgets) (sb : Sidebar) (loc : Row) (r : Res.t) : Prop :=
  roi_of_row w sb (City loc) loc = Ok r.




(** The row of the table keyed by the pair (country, city): what a
    lookup on both columns returns. *)
Definition row_of_pair (df : DataFrame) (country city : string) : outcome Row :=
  iloc0 (filter (fun r => (Country r =? country) && (City r =? city)) df).

(** ** Example data

    [data.csv] is not among the sources: these rows are illustrations
    with the column values of the worked examples. *)

Definition jaipur : Row :=
  mkRow "India" "Jaipur" 5.5 0.15 "None" 0 "Net metering available."
        "INR" "Rs" 83 26.9124 75.7873.

(** The same location with a CAPEX subsidy of 1000 USD. *)
Definition jaipur_subsidised : Row :=
  mkRow "India" "Jaipur" 5.5 0.15 "CAPEX_Subsidy" 1000 "Central subsidy for rooftop systems."
        "INR" "Rs" 83 26.9124 75.7873.

Definition pune : Row :=
  mkRow "India" "Pune" 5.2 0.12 "CAPEX_Subsidy" 1000 "Central subsidy for rooftop systems."
        "INR" "Rs" 83 18.5204 73.8567.

Definition hyderabad_in : Row :=
  mkRow "India" "Hyderabad" 5.6 0.11 "CAPEX_Subsidy" 7000 "State rooftop subsidy."
        "INR" "Rs" 83 17.385 78.4867.

Definition hyderabad_pk : Row :=
  mkRow "Pakistan" "Hyderabad" 5.8 0.2 "None" 0 "Net metering only."
        "PKR" "Rs" 280 25.396 68.3578.

Definition example_table : DataFrame := [jaipur; pune; hyderabad_in; hyderabad_pk].

(** The form of the worked example: 5 kW, 6000 USD, amounts in USD. *)
Definition example_form (compare : bool) (country : string) (cities : list string)
  (city : option string) : Widgets :=
  mkWidgets compare country cities city 5 6000 "USD" true.

Definition india_sidebar (compare : bool) (cities : list string) (city : option string) : Sidebar :=
  mkSidebar false (if compare then cities else []) (if compare then None else city)
    jaipur "INR" "Rs" 83.



(** Networks on which every request gets [404 Not Found], or
    [503 Service Unavailable], and one on which no connection can be
    made. *)
Definition not_found : Network :=
  fun _ => GetReturns (mkResponse 404 None).


Definition offline : Network :=
  fun _ => GetRaises ConnectionError.

(** * Facts about binary64 arithmetic

    Derived from the specification of the primitive operations
    ([SpecFloat], [FloatAxioms]). *)

Module Binary64.

Local Open Scope Z_scope.

(** ** Comparisons and the constants of the script *)

Lemma ltb_leb (x y : float) : (x <? y)%float = true -> (x <=? y)%float = true.
Proof.
  rewrite ltb_spec, leb_spec. unfold SFltb, SFleb.
  destruct (SFcompare (Prim2SF x) (Prim2SF y)) as [[ | | ]|]; congruence.
Qed.

Lemma Prim2SF_floor : Prim2SF 0.01 = S754_finite false 5764607523034235 (-59).
Proof. vm_compute. reflexivity. Qed.

Lemma Prim2SF_zero : Prim2SF 0 = S754_zero false.
Proof. vm_compute. reflexivity. Qed.




(** ** Signs of rounded results and of quotients *)



(** ** The floored divisor [max(0.01, revenue)] *)

Lemma max_floor (x : float) : (0.01 <=? Py.max 0.01 x)%float = true.
Proof.
  unfold Py.max. destruct (0.01 <? x)%float eqn:E.
  - now apply ltb_leb.
  - vm_compute. reflexivity.
Qed.

Lemma floor_nonzero (d : float) : (0.01 <=? d)%float = true -> (d =? 0)%float = false.
Proof.
  rewrite leb_spec, eqb_spec, Prim2SF_floor, Prim2SF_zero.
  destruct (Prim2SF d) as [s|s| |s m e]; intros H;
    try discriminate H; try (destruct s; reflexivity).
Qed.



(** ** Multiplication by 1.0 is the identity *)




(** ** Right shifts never lose a whole mantissa *)











(** ** Subtracting a larger value gives a negative one *)





(** ** Dividing a negative value by the floored divisor *)









End Binary64.

(** * The ROI calculation *)

Lemma payback_defined (net revenue : float) :
  payback_period_years net revenue = Ok (net / Py.max 0.01 revenue)%float.
Proof.
  unfold payback_period_years, truediv.
  rewrite Binary64.floor_nonzero by apply Binary64.max_floor.
  reflexivity.
Qed.




Lemma roi_of_row_total (w : Widgets) (sb : Sidebar) (city_name : string) (city_data : Row) :
  exists r : Res.t, roi_of_row w sb city_name city_data = Ok r /\ Res.city r = city_name.
Proof.
  unfold roi_of_row. rewrite payback_defined. cbn [bind].
  eexists. split; reflexivity.
Qed.

Lemma float_neq (x y : float) : Prim2SF x <> Prim2SF y -> x <> y.
Proof. intros H E. apply H. now rewrite E. Qed.









(** * Currency conversion *)





(** * The loop over the selected cities *)

Section Loop.

Variables (df : DataFrame) (w : Widgets) (sb : Sidebar).

Lemma roi_loop_appends (locs : list Row) : forall acc : list Res.t,
  Forall (fetched df) locs ->
  exists results : list Res.t,
    roi_loop df w sb (map City locs) acc = Ok (acc ++ results)%list
    /\ Forall2 (computed_from w sb) locs results.
Proof.
  induction locs as [|loc locs IH]; intros acc F.
  - exists []. cbn. rewrite app_nil_r. split; constructor.
  - inversion F as [|? ? Hloc Hrest]; subst.
    destruct (roi_of_row_total w sb (City loc) loc) as (r & Hr & _).
    destruct (IH (acc ++ [r])%list Hrest) as (rs & Hrs & Hall).
    exists (r :: rs). split.
    + cbn [map roi_loop]. unfold roi_for_city. rewrite Hloc. cbn [bind].
      rewrite Hr. cbn [bind]. rewrite Hrs, <- app_assoc. reflexivity.
    + constructor; assumption.
Qed.

Lemma computed_cities (locs : list Row) (results : list Res.t) :
  Forall2 (computed_from w sb) locs results -> map Res.city results = map City locs.
Proof.
  induction 1 as [|loc r locs results H _ IH]; [reflexivity|].
  cbn. rewrite IH. f_equal.
  destruct (roi_of_row_total w sb (City loc) loc) as (r' & Hr & Hc).
  unfold computed_from in H. congruence.
Qed.


End Loop.

(** [C5].  In compare mode, for every ordered selection of locations
    (rows the table returns for their city names) and a fixed form, the
    loop yields exactly one result per location, in the order of the
    selection, each one the single-location computation on that
    location; the calculation keeps that list as it is (it is what gets
    stored when the selection is not empty) and derives nothing else
    from it. *)
Theorem compare_mode_keeps_order_and_count
  (df : DataFrame) (w : Widgets) (sb : Sidebar) (old : results_data) (locs : list Row) :
  compare_mode w = true ->
  selected_cities sb = map City locs ->
  Forall (fetched df) locs ->
  exists results : list Res.t,
    roi_loop df w sb (map City locs) [] = Ok results
    /\ Forall2 (computed_from w sb) locs results
    /\ List.length results = List.length locs
    /\ map Res.city results = map City locs
    /\ (exists shown : list ui_event,
          calculate df w sb old
          = Ok (mkCalculation results
                  (match results with [] => old | _ :: _ => ResultList results end)
                  shown)).
Proof.
  intros Hmode Hsel F.
  destruct (roi_loop_appends df w sb locs [] F) as (results & Hloop & Hall).
  cbn [app] in Hloop.
  exists results. split; [exact Hloop|]. split; [exact Hall|].
  split; [symmetry; eapply Forall2_length; eassumption|].
  split; [eapply computed_cities; eassumption|].
  unfold calculate, cities_to_process. rewrite Hmode, Hsel, Hloop. cbn [bind].
  eexists. unfold save_results. rewrite Hmode.
  destruct results; reflexivity.
Qed.

Lemma compare_mode_witness :
  exists results : list Res.t,
    roi_loop example_table (example_form true "India" ["Pune"; "Jaipur"] None)
      (india_sidebar true ["Pune"; "Jaipur"] None) ["Pune"; "Jaipur"] [] = Ok results
    /\ List.length results = 2%nat
    /\ map Res.city results = ["Pune"; "Jaipur"].
Proof.
  destruct (compare_mode_keeps_order_and_count example_table
              (example_form true "India" ["Pune"; "Jaipur"] None)
              (india_sidebar true ["Pune"; "Jaipur"] None) NoResults [pune; jaipur])
    as (results & L & _ & N & C & _).
  - reflexivity.
  - reflexivity.
  - repeat constructor.
  - exists results. split; [exact L|]. split; [exact N|exact C].
Defined.



(** * A selected city without a row *)





(** * The loading animation *)



(** [C7], the failing run.  With no network, [requests.get] raises
    inside [load_lottie_url]; the exception leaves the script before the
    form is read, and no ROI is computed, although a city is selected
    and the button pressed.  The same run with a 404 answer computes the
    result. *)
Example lottie_network_failure_aborts :
  run_script offline example_table (example_form false "India" [] (Some "Jaipur")) NoResults
  = Raise ConnectionError
  /\ (exists c : Calculation,
        run_script not_found example_table (example_form false "India" [] (Some "Jaipur"))
          NoResults = Ok c
        /\ map Res.city (all_results c) = ["Jaipur"]
        /\ In (Toast "Success! Calculation complete.") (shown c)).
Proof.
  split; [reflexivity|].
  eexists. split; [vm_compute; reflexivity|].
  split; [reflexivity|]. left. reflexivity.
Qed.

(** * Which row enters the computation *)

(** [X4].  The row fetched for a city name is the first row of the
    table with that name. *)
Lemma where_city_first_match (df : DataFrame) (city : string) (row : Row) :
  iloc0 (where_city df city) = Ok row ->
  exists before after : DataFrame,
    df = (before ++ row :: after)%list
    /\ City row = city
    /\ Forall (fun r => City r <> city) before.
Proof.
  induction df as [|r df IH]; cbn; [discriminate|].
  destruct (String.eqb_spec (City r) city) as [E|N]; cbn.
  - intros H. injection H as <-. exists [], df. repeat split; [exact E|constructor].
  - intros H. destruct (IH H) as (before & after & -> & Hc & Hb).
    exists (r :: before), after. repeat split; [exact Hc|constructor; assumption].
Qed.

(** [X3].  When the city name occurs for one country only, the lookup
    by city name returns the row keyed by the pair. *)
Lemma city_lookup_agrees_when_city_unique (df : DataFrame) (country city : string) :
  (forall r : Row, In r df -> City r = city -> Country r = country) ->
  iloc0 (where_city df city) = row_of_pair df country city.
Proof.
  intros U. unfold row_of_pair, where_city. f_equal.
  apply filter_ext_in. intros r Hin.
  destruct (String.eqb_spec (City r) city) as [E|N].
  - rewrite (U r Hin E), String.eqb_refl. reflexivity.
  - now rewrite andb_false_r.
Qed.

(** [C8], the failing input.  In a table that lists Hyderabad for India
    and for Pakistan, the pair (Pakistan, Hyderabad) is keyed to the
    Pakistani row, but the lookup by city name alone returns the Indian
    one: the stored result is labelled Pakistan and carries the
    irradiance, tariff and incentive of the Indian row. *)
Example city_lookup_ignores_country :
  row_of_pair example_table "Pakistan" "Hyderabad" = Ok hyderabad_pk
  /\ iloc0 (where_city example_table "Hyderabad") = Ok hyderabad_in
  /\ exists (c : Calculation) (r : Res.t),
       run_script not_found example_table
         (example_form false "Pakistan" [] (Some "Hyderabad")) NoResults = Ok c
       /\ stored c = SingleResult r
       /\ Res.country r = "Pakistan"
       /\ Res.city r = "Hyderabad"
       /\ Res.ghi r = GHI_Daily hyderabad_in
       /\ Res.ghi r <> GHI_Daily hyderabad_pk
       /\ Res.incentive_type r = Incentive_Type hyderabad_in
       /\ Res.incentive_type r <> Incentive_Type hyderabad_pk
       /\ Res.tariff r = Tariff_USD_kWh hyderabad_in
       /\ Res.tariff r <> Tariff_USD_kWh hyderabad_pk.
Proof.
  split; [reflexivity|]. split; [reflexivity|].
  eexists. eexists. split; [vm_compute; reflexivity|].
  split; [reflexivity|].
  repeat split; try (vm_compute; reflexivity);
    try (apply float_neq; vm_compute; discriminate);
    try (vm_compute; discriminate).
Qed.

(** * A subsidy larger than the cost *)




(** * [app.py] *)


(** * Further checks *)

(** [X1].  The second worked example: the first one with a CAPEX subsidy of
    1000 USD has a net cost of 5000 USD and a payback printed 4.43. *)
Example subsidised_example :
  exists r : Res.t,
    roi_of_row (example_form false "India" [] (Some "Jaipur"))
      (india_sidebar false [] (Some "Jaipur")) "Jaipur" jaipur_subsidised = Ok r
    /\ Res.net_cost r = 5000%float
    /\ Res.payback r = (5000 / 1129.21875)%float
    /\ hundredths (Res.payback r) = Some 443%Z.
Proof.
  eexists. split; [vm_compute; reflexivity|].
  repeat split; vm_compute; reflexivity.
Qed.

(** A 404 answer of the animation host changes nothing but the
    animation: the script then computes and stores the result. *)
Example not_found_animation_is_skipped :
  exists (c : Calculation) (r : Res.t),
    run_script not_found example_table (example_form false "India" [] (Some "Jaipur"))
      NoResults = Ok c
    /\ stored c = SingleResult r
    /\ Res.energy r = 7528.125%float
    /\ ~ In Lottie (shown c).
Proof.
  eexists. eexists. split; [vm_compute; reflexivity|].
  split; [reflexivity|]. split; [reflexivity|].
  cbn. intros [H|[]]. discriminate H.
Qed.






Lemma unique_city_witness :
  iloc0 (where_city example_table "Pune") = row_of_pair example_table "India" "Pune".
Proof.
  apply city_lookup_agrees_when_city_unique.
  intros r [<-|[<-|[<-|[<-|[]]]]] E; cbn in E; try discriminate E; reflexivity.
Defined.

Lemma first_match_witness :
  exists before after : DataFrame,
    example_table = (before ++ hyderabad_in :: after)%list
    /\ City hyderabad_in = "Hyderabad"
    /\ Forall (fun r => City r <> "Hyderabad") before.
Proof.
  apply where_city_first_match. reflexivity.
Defined.


